(** * Doctor review table: accept / reject proposed updates

    A shallow embedding of the review workflow of [src/app.py] (the
    Streamlit script held in [app_code3]): the change detector
    [get_changes], the audit logger [log_audit], the two row mutators
    [accept_row] and [reject_row], the two reset buttons and the summary
    rollup, together with the seed table [base_df].

    Conventions of the embedding.
    - A cell of the table holds a Python value: [None], a [str], an [int]
      or a [float].  These are the only kinds of value the seed data puts
      into the table.
    - A [pandas.Series] (one row) is a finite map from column label to
      value; a [pandas.DataFrame] is a finite map from column label to the
      list of cells of that column, the row labels being the default
      [RangeIndex] 0, 1, ..., n-1.
    - A Python exception ([KeyError] on a missing label) is an explicit
      error result.
    - A cell holds the value that was written to it.  The conversions
      pandas applies to fit a value to the dtype of its column (storing a
      null as NaN in a float column, say) are not modelled, except at the
      construction of the seed table, where they decide what the cells
      hold at the start.
    - [st.session_state] is an explicit record threaded through every
      handler; the clock read by [datetime.now()] is an argument of the
      handler.  Toasts and the page rerun only produce output and are left
      out. *)

From Stdlib Require Import ZArith String Ascii List Bool Lia DecimalString.
From stdpp Require Import base option list gmap strings fin_maps.
Import ListNotations.

Local Open Scope string_scope.
Local Open Scope list_scope.

(** ** Python values *)

(** A float is NaN, an infinity, or the finite number [m * 2^e]. *)
Inductive pyfloat : Type :=
  | FNaN
  | FInf (negative : bool)
  | FFin (m e : Z).

Inductive value : Type :=
  | VNone
  | VStr (s : string)
  | VInt (n : Z)
  | VFloat (x : pyfloat).

Definition is_str (v : value) : bool :=
  match v with VStr _ => true | _ => false end.

(** [m1 * 2^e1 = m2 * 2^e2], compared exactly after aligning exponents. *)
Definition dyadic_eqb (m1 e1 m2 e2 : Z) : bool :=
  let e := Z.min e1 e2 in
  (m1 * 2 ^ (e1 - e) =? m2 * 2 ^ (e2 - e))%Z.

Definition float_eqb (x y : pyfloat) : bool :=
  match x, y with
  | FFin m1 e1, FFin m2 e2 => dyadic_eqb m1 e1 m2 e2
  | FInf a, FInf b => Bool.eqb a b
  | _, _ => false
  end.

(** Python's [==] on cell values: numbers compare by numeric value across
    [int] and [float], NaN equals nothing, values of unrelated types are
    unequal. *)
Definition py_eq (a b : value) : bool :=
  match a, b with
  | VNone, VNone => true
  | VStr s, VStr t => String.eqb s t
  | VInt m, VInt n => (m =? n)%Z
  | VInt m, VFloat x => float_eqb (FFin m 0) x
  | VFloat x, VInt n => float_eqb x (FFin n 0)
  | VFloat x, VFloat y => float_eqb x y
  | _, _ => false
  end.

(** Python's [!=]. *)
Definition py_ne (a b : value) : bool := negb (py_eq a b).

(** ** [str.strip] *)

(** Characters are code points below 256.  The white space of
    [str.strip()] in that range: TAB, LF, VT, FF, CR, the separators
    FS, GS, RS, US, the space, NEL (133) and the no-break space (160). *)
Definition is_space (c : ascii) : bool :=
  let n := nat_of_ascii c in
  ((9 <=? n)%nat && (n <=? 13)%nat) || ((28 <=? n)%nat && (n <=? 32)%nat)
  || (n =? 133)%nat || (n =? 160)%nat.

Fixpoint lstrip (s : string) : string :=
  match s with
  | EmptyString => EmptyString
  | String c s' => if is_space c then lstrip s' else s
  end.

Fixpoint rstrip (s : string) : string :=
  match s with
  | EmptyString => EmptyString
  | String c s' =>
      match rstrip s' with
      | EmptyString => if is_space c then EmptyString else String c EmptyString
      | r => String c r
      end
  end.

Definition strip (s : string) : string := rstrip (lstrip s).

(** ** Helpers of the script *)

(** [_nonempty(v)]: [None] and NaN are empty; otherwise [str(v).strip()]
    must not be the empty string.  [str] of a string is the string itself;
    [str] of an [int] or of a float other than NaN always holds a digit or
    the letters of [inf], so it is never blank. *)
Definition _nonempty (v : value) : bool :=
  match v with
  | VNone => false
  | VFloat FNaN => false
  | VStr s => negb (String.eqb (strip s) "")
  | VInt _ => true
  | VFloat _ => true
  end.

(** [(base_col, new_col)] *)
Definition _proposed_pairs : list (string * string) :=
  [ ("Address", "New Address");
    ("Focus", "New Focus");
    ("School Graduated", "New School Graduated");
    ("Year", "New Year") ].

(** ** Errors *)

(** The only exception the handlers can raise is [KeyError], carrying the
    missing label. *)
Inductive result (A : Type) : Type :=
  | Ok (a : A)
  | KeyError (label : value).
Arguments Ok {A} a.
Arguments KeyError {A} label.

#[global] Instance result_bind : MBind result := λ A B k r,
  match r with
  | Ok a => k a
  | KeyError l => KeyError l
  end.

(** A [for] loop with an accumulator, stopping at the first exception. *)
Fixpoint for_each {A B : Type} (body : A → B → result A) (xs : list B)
    (acc : A) : result A :=
  match xs with
  | [] => Ok acc
  | x :: xs' => acc' ← body acc x; for_each body xs' acc'
  end.

(** ** Rows and tables *)

Abbreviation Series := (gmap string value).
Abbreviation DataFrame := (gmap string (list value)).

(** [row[col]] *)
Definition getitem (row : Series) (col : string) : result value :=
  match row !! col with
  | Some v => Ok v
  | None => KeyError (VStr col)
  end.

(** [col in row.index] *)
Definition in_index (row : Series) (col : string) : bool :=
  bool_decide (is_Some (row !! col)).

(** [col in df.columns] *)
Definition in_columns (df : DataFrame) (col : string) : bool :=
  bool_decide (is_Some (df !! col)).

(** [df.loc[idx]]: the row labelled [idx], as a fresh Series (the table has
    columns of several dtypes, so the row is a copy, not a view).  The
    label is in the index when every column has a cell for it. *)
Definition loc (df : DataFrame) (idx : nat) : result Series :=
  if bool_decide (map_Forall (λ _ (col : list value), idx < length col) df)
  then Ok (omap (λ col : list value, col !! idx) df)
  else KeyError (VInt (Z.of_nat idx)).

(** [df.at[idx, col]] as an expression. *)
Definition at_get (df : DataFrame) (idx : nat) (col : string) : result value :=
  match df !! col with
  | Some cells =>
      match cells !! idx with
      | Some v => Ok v
      | None => KeyError (VInt (Z.of_nat idx))
      end
  | None => KeyError (VStr col)
  end.

(** [df.at[idx, col] = v].  Every call site writes to a cell that exists
    (the labels were read from the same table just before), so the
    enlargement pandas performs on a missing label never happens and is
    not modelled. *)
Definition at_set (df : DataFrame) (idx : nat) (col : string) (v : value)
    : DataFrame :=
  alter (λ cells : list value, <[idx := v]> cells) col df.

(** ** Change detector *)

Definition change : Type := string * value * value.

Definition change_field (c : change) : string := fst (fst c).

(** Body of the loop of [get_changes]. *)
Definition get_changes_step (row : Series) (changes : list change)
    (pair : string * string) : result (list change) :=
  let '(base_col, new_col) := pair in
  let new_val :=
    if in_index row new_col then default VNone (row !! new_col) else VNone in
  if _nonempty new_val then
    old ← getitem row base_col;
    if py_ne new_val old
    then Ok (changes ++ [(base_col, old, new_val)])
    else Ok changes
  else Ok changes.

(** [get_changes(row)]: list of (field, old, new) that actually change. *)
Definition get_changes (row : Series) : result (list change) :=
  for_each (get_changes_step row) _proposed_pairs [].

(** ** Session state and audit log *)

Definition REVIEWER : string := "Albert Yao".

(** The reading of the clock, [datetime.now()]. *)
Record datetime : Type := {
  year : nat;
  month : nat;
  day : nat;
  hour : nat;
  minute : nat;
  second : nat;
  microsecond : nat
}.

Definition decimal (n : nat) : string := NilZero.string_of_uint (Nat.to_uint n).

(** Two digits, zero padded ([%m], [%d], [%H], [%M]). *)
Definition two_digits (n : nat) : string :=
  if (n <? 10)%nat then "0" +:+ decimal n else decimal n.

(** [t.strftime("%Y-%m-%d %H:%M")] (years from 1000 on, which print with
    their four digits). *)
Definition strftime (t : datetime) : string :=
  decimal (year t) +:+ "-" +:+ two_digits (month t) +:+ "-"
  +:+ two_digits (day t) +:+ " " +:+ two_digits (hour t) +:+ ":"
  +:+ two_digits (minute t).

(** One audit entry: the dict [{Time, Reviewer, Name, Action, Fields}]. *)
Record Entry : Type := {
  Time : string;
  Reviewer : string;
  Name : value;
  Action : string;
  Fields : string
}.

(** [ss]: the table, the dict name -> last action, the audit list.  The
    dict keeps its insertion order, which the rollup shows. *)
Record SessionState : Type := {
  doctors : DataFrame;
  actions : list (value * string);
  audit : list Entry
}.

(** [d[k] = v] on an insertion-ordered dict: an equal key keeps its place
    and gets the new value, a new key goes last.  Keys are compared with
    [==] (so a NaN key, which equals nothing, is always new). *)
Fixpoint dict_set (k : value) (v : string) (d : list (value * string))
    : list (value * string) :=
  match d with
  | [] => [(k, v)]
  | (k', v') :: d' =>
      if py_eq k' k then (k', v) :: d' else (k', v') :: dict_set k v d'
  end.


(** [", ".join(fields_changed) if fields_changed else "-"] *)
Definition fields_text (fields_changed : list string) : string :=
  match fields_changed with
  | [] => "-"
  | _ => String.concat ", " fields_changed
  end.

(** [log_audit(name, action, fields_changed)], reading the clock as [now]. *)
Definition log_audit (now : datetime) (name : value) (action : string)
    (fields_changed : list string) (ss : SessionState) : SessionState :=
  let ts := strftime now in
  let entry :=
    {| Time := ts;
       Reviewer := REVIEWER;
       Name := name;
       Action := action;
       Fields := fields_text fields_changed |} in
  {| doctors := doctors ss;
     actions := actions ss;
     audit := audit ss ++ [entry] |}.

(** ** Row mutators *)

(** The value that clears a proposal slot holding [v]:
    ["" if isinstance(v, str) else None]. *)
Definition cleared (v : value) : value :=
  if is_str v then VStr "" else VNone.

(** ["New " + field if field != "School Graduated" else "New School Graduated"] *)
Definition new_col_of (field : string) : string :=
  if negb (String.eqb field "School Graduated")
  then "New " +:+ field
  else "New School Graduated".

(** Body of the loop of [accept_row] over the changes. *)
Definition accept_step (idx : nat) (acc : DataFrame * list string)
    (c : change) : result (DataFrame * list string) :=
  let '(df, changed_fields) := acc in
  let '(field, old, new) := c in
  let df := at_set df idx field new in
  let new_col := new_col_of field in
  df ← (if in_columns df new_col
        then cur ← at_get df idx new_col;
             Ok (at_set df idx new_col (cleared cur))
        else Ok df);
  Ok (df, changed_fields ++ [field]).

(** [accept_row(idx)] *)
Definition accept_row (now : datetime) (idx : nat) (ss : SessionState)
    : result SessionState :=
  row ← loc (doctors ss) idx;
  changes ← get_changes row;
  match changes with
  | [] =>
      name ← getitem row "Name";
      Ok (log_audit now name "accepted (no-op)" [] ss)
  | _ =>
      '(df, changed_fields) ← for_each (accept_step idx) changes (doctors ss, []);
      name ← getitem row "Name";
      Ok (log_audit now name "accepted" changed_fields
            {| doctors := df;
               actions := dict_set name "accepted" (actions ss);
               audit := audit ss |})
  end.

(** Body of the loop of [reject_row] over the proposed pairs. *)
Definition reject_step (row : Series) (idx : nat)
    (acc : DataFrame * list string) (pair : string * string)
    : result (DataFrame * list string) :=
  let '(df, proposed_fields) := acc in
  let '(base_col, new_col) := pair in
  if in_columns df new_col then
    v ← getitem row new_col;
    if _nonempty v then
      cur ← at_get df idx new_col;
      Ok (at_set df idx new_col (cleared cur), proposed_fields ++ [base_col])
    else Ok (df, proposed_fields)
  else Ok (df, proposed_fields).

(** [reject_row(idx)] *)
Definition reject_row (now : datetime) (idx : nat) (ss : SessionState)
    : result SessionState :=
  row ← loc (doctors ss) idx;
  '(df, proposed_fields) ←
    for_each (reject_step row idx) _proposed_pairs (doctors ss, []);
  name ← getitem row "Name";
  Ok (log_audit now name "rejected" proposed_fields
        {| doctors := df;
           actions := dict_set name "rejected" (actions ss);
           audit := audit ss |}).

(** ** Reset buttons and rollup *)

(** Button "Clear Session Actions": [ss.actions = {}]. *)
Definition clear_session_actions (ss : SessionState) : SessionState :=
  {| doctors := doctors ss; actions := []; audit := audit ss |}.

(** Button "Clear Audit Log": [ss.audit = []]. *)
Definition clear_audit_log (ss : SessionState) : SessionState :=
  {| doctors := doctors ss; actions := actions ss; audit := [] |}.





(** ** Seed data *)

Definition is_int (v : value) : bool :=
  match v with VInt _ => true | _ => false end.

Definition is_none (v : value) : bool :=
  match v with VNone => true | _ => false end.

(** What [pd.DataFrame] stores for one column of the literal: a column of
    ints with some [None] becomes a float column, [None] turning into NaN
    and each int into the float of the same value (exact for the small
    ints of the seed); every other column of the seed is kept as written. *)
Definition infer_column (cells : list value) : list value :=
  if forallb (λ v, is_int v || is_none v) cells
     && existsb is_int cells && existsb is_none cells
  then map (λ v, match v with
                 | VNone => VFloat FNaN
                 | VInt n => VFloat (FFin n 0)
                 | _ => v
                 end) cells
  else cells.

(** [pd.DataFrame({...})] on a dict of equally long columns. *)
Definition pd_DataFrame (data : list (string * list value)) : DataFrame :=
  list_to_map (map (λ cd, (fst cd, infer_column (snd cd))) data).

Definition base_df : DataFrame :=
  pd_DataFrame
    [ ("Name",
        [ VStr "Dr. Sarah Johnson"; VStr "Dr. Michael Chen";
          VStr "Dr. Emily Rodriguez"; VStr "Dr. James Wilson";
          VStr "Dr. Lisa Park" ]);
      ("Source Page",
        [ VStr "https://example.com/sarah-johnson";
          VStr "https://example.com/michael-chen";
          VStr "https://example.com/emily-rodriguez";
          VStr "https://example.com/james-wilson";
          VStr "https://example.com/lisa-park" ]);
      ("Address",
        [ VStr "123 Medical Center Dr, Boston, MA";
          VStr "456 Healthcare Blvd, New York, NY";
          VStr "789 Clinic Ave, Chicago, IL";
          VStr "321 Hospital St, Los Angeles, CA";
          VStr "654 Medical Plaza, Houston, TX" ]);
      ("Focus",
        [ VStr "Cardiology"; VStr "Neurology"; VStr "Pediatrics";
          VStr "Orthopedics"; VStr "Dermatology" ]);
      ("School Graduated",
        [ VStr "Harvard Medical School"; VStr "Johns Hopkins";
          VStr "Stanford Medicine"; VStr "Yale School of Medicine";
          VStr "UCLA Medical School" ]);
      ("Year", [ VInt 2015; VInt 2018; VInt 2012; VInt 2016; VInt 2020 ]);
      ("New Address",
        [ VStr "123 Medical Center Dr, Boston, MA";
          VStr "999 5th Ave, New York, NY";
          VStr "";
          VStr "";
          VStr "1200 Main St, Houston, TX" ]);
      ("New Focus",
        [ VStr ""; VStr "Neurosurgery"; VStr ""; VStr ""; VStr "" ]);
      ("New School Graduated",
        [ VStr ""; VStr ""; VStr "Stanford School of Medicine"; VStr "";
          VStr "" ]);
      ("New Year", [ VNone; VNone; VNone; VInt 2018; VNone ]) ].

(** The session at its start: [ss.doctors = base_df.copy()],
    [ss.actions = {}], [ss.audit = []]. *)
Definition init_state : SessionState :=
  {| doctors := base_df; actions := []; audit := [] |}.

(** ** Vocabulary of the specification *)

(** The tracked fields, in the fixed field order. *)
Definition tracked_fields : list string :=
  ["Address"; "Focus"; "School Graduated"; "Year"].

(** The proposal slot that runs parallel to a current field. *)
Definition slot_of (field : string) : string := "New " +:+ field.

(** The proposed value for [field]; a slot that is not there proposes
    nothing. *)
Definition proposal (row : Series) (field : string) : value :=
  default VNone (row !! slot_of field).

(** The change the specification asks for on one field: the triple
    (field, old, new) when the proposal is non-empty and differs from the
    current value. *)
Definition field_change (row : Series) (field : string) : option change :=
  old ← row !! field;
  if _nonempty (proposal row field) && py_ne (proposal row field) old
  then Some (field, old, proposal row field)
  else None.

(** The change list of the specification: the changing fields, in the
    fixed field order. *)
Definition changes_spec (row : Series) : list change :=
  omap (field_change row) tracked_fields.




(** The table once one change is applied to row [idx]: the current field
    takes the proposed value and the slot is cleared. *)
Definition write_change (idx : nat) (df : DataFrame) (c : change) : DataFrame :=
  at_set (at_set df idx (change_field c) (snd c)) idx
         (slot_of (change_field c)) (cleared (snd c)).

(** The table once every change of the list is applied to row [idx]. *)
Definition apply_changes (idx : nat) (changes : list change) (df : DataFrame)
    : DataFrame :=
  foldl (write_change idx) df changes.



(** The changes of a list that the loop of accept_row can apply to [df]:
    distinct tracked fields, each with a current cell and with its
    proposed value still in the slot. *)
Definition applicable (idx : nat) (changes : list change) (df : DataFrame) : Prop :=
  NoDup (change_field <$> changes)
  ∧ (∀ ch, ch ∈ changes → change_field ch ∈ tracked_fields)
  ∧ (∀ ch, ch ∈ changes →
       (∃ w, at_get df idx (change_field ch) = Ok w)
       ∧ at_get df idx (slot_of (change_field ch)) = Ok (snd ch)).


(** A string made of white space only (the empty string included). *)
Fixpoint whitespace_only (s : string) : bool :=
  match s with
  | EmptyString => true
  | String c s' => is_space c && whitespace_only s'
  end.




(** ** Sample inputs *)

(** A reading of the clock. *)
Definition sample_now : datetime :=
  {| year := 2025; month := 3; day := 9; hour := 14; minute := 5;
     second := 41; microsecond := 250 |}.

(** A later reading of the clock, in another minute. *)
Definition sample_later : datetime :=
  {| year := 2025; month := 3; day := 9; hour := 14; minute := 6;
     second := 2; microsecond := 0 |}.

(** Row [idx] of the seed table. *)
Definition seed_row (idx : nat) : Series :=
  omap (λ col : list value, col !! idx) base_df.



(** ** The buttons of the page *)




(** The table has [n] rows: every column has [n] cells. *)
Definition has_rows (df : DataFrame) (n : nat) : Prop :=
  map_Forall (λ _ (cells : list value), length cells = n) df.

(** A table of [n] rows with the [Name] column and the four current
    columns; the proposal columns may be there or not. *)
Definition table_ok (df : DataFrame) (n : nat) : Prop :=
  has_rows df n
  ∧ in_columns df "Name" = true
  ∧ ∀ field, field ∈ tracked_fields → in_columns df field = true.









(** ** More sample inputs *)





(** * Properties *)

(** ** Tables *)

Lemma bind_Ok {A B : Type} (r : result A) (k : A → result B) (b : B) :
  (r ≫= k) = Ok b ↔ ∃ a, r = Ok a ∧ k a = Ok b.
Proof.
  destruct r as [a|l]; simpl; split.
  - eauto.
  - intros (a' & [= <-] & H); done.
  - discriminate.
  - intros (a' & [=] & _).
Qed.


Lemma at_get_Ok (df : DataFrame) (idx : nat) (col : string) (v : value) :
  at_get df idx col = Ok v ↔ ∃ cells, df !! col = Some cells ∧ cells !! idx = Some v.
Proof.
  unfold at_get. destruct (df !! col) as [cells|].
  - destruct (cells !! idx) as [w|] eqn:E; split.
    + intros [= ->]. by exists cells.
    + intros (cells' & [= <-] & Hv). rewrite E in Hv. by injection Hv as ->.
    + discriminate.
    + intros (cells' & [= <-] & Hv). by rewrite E in Hv.
  - split; [discriminate|]. by intros (cells' & H & _).
Qed.

Lemma loc_Ok (df : DataFrame) (idx : nat) (row : Series) :
  loc df idx = Ok row ↔
  map_Forall (λ _ (col : list value), idx < length col) df
  ∧ row = omap (λ col : list value, col !! idx) df.
Proof.
  unfold loc. case_bool_decide as H; split.
  - by intros [= <-].
  - by intros [_ ->].
  - discriminate.
  - by intros [? _].
Qed.

Lemma loc_lookup (df : DataFrame) (idx : nat) (row : Series) (col : string) (v : value) :
  loc df idx = Ok row → row !! col = Some v ↔ at_get df idx col = Ok v.
Proof.
  intros [_ ->]%loc_Ok. rewrite lookup_omap, at_get_Ok.
  destruct (df !! col) as [cells|]; simpl; split.
  - intros Hv. by exists cells.
  - by intros (cells' & [= <-] & Hv).
  - discriminate.
  - by intros (cells' & H & _).
Qed.




Lemma at_get_at_set_ne (df : DataFrame) (i j : nat) (c c' : string) (v : value) :
  i ≠ j ∨ c ≠ c' → at_get (at_set df i c v) j c' = at_get df j c'.
Proof.
  intros Hne. unfold at_get, at_set. rewrite lookup_alter. case_decide; [subst c'|done].
  destruct (df !! c) as [cells|]; simpl; [|done].
  destruct Hne as [Hne|Hne]; [|done]. by rewrite list_lookup_insert_ne.
Qed.


(** ** Change detector *)

Lemma pairs_are_tracked :
  _proposed_pairs = (λ field, (field, slot_of field)) <$> tracked_fields.
Proof. reflexivity. Qed.

Lemma new_col_of_slot (field : string) : new_col_of field = slot_of field.
Proof.
  unfold new_col_of, slot_of. destruct (String.eqb_spec field "School Graduated") as [->|]; done.
Qed.

Lemma get_changes_step_spec (row : Series) (changes : list change) (field : string) :
  is_Some (row !! field) →
  get_changes_step row changes (field, slot_of field)
  = Ok (changes ++ option_list (field_change row field)).
Proof.
  intros [old Hold]. unfold get_changes_step, field_change, proposal, in_index.
  assert ((if bool_decide (is_Some (row !! slot_of field))
           then default VNone (row !! slot_of field) else VNone)
          = default VNone (row !! slot_of field)) as ->.
  { case_bool_decide as H; [done|]. destruct (row !! slot_of field); [|done].
    exfalso; eauto. }
  rewrite Hold. simpl.
  destruct (_nonempty _); simpl; [|by rewrite app_nil_r].
  unfold getitem. rewrite Hold. simpl.
  destruct (py_ne _ _); simpl; [done|by rewrite app_nil_r].
Qed.



(** ** Column names *)

Lemma slot_of_inj (f f' : string) : slot_of f = slot_of f' → f = f'.
Proof. unfold slot_of. cbn. intros H. by simplify_eq. Qed.

Lemma tracked_not_slot (f f' : string) : f ∈ tracked_fields → f ≠ slot_of f'.
Proof.
  unfold tracked_fields, slot_of. intros H.
  repeat (apply elem_of_cons in H as [->|H]); try (by apply elem_of_nil in H);
    cbn; discriminate.
Qed.

Lemma NoDup_tracked_fields : NoDup tracked_fields.
Proof.
  unfold tracked_fields.
  repeat (apply NoDup_cons; split;
          [intros H; repeat (apply elem_of_cons in H as [H|H]; [discriminate H|]);
           by apply elem_of_nil in H|]).
  apply NoDup_nil_2.
Qed.

(** Closes a goal [i ≠ j ∨ c ≠ c'] on two column names that differ because
    tracked fields and slots are all distinct. *)
Ltac names_differ :=
  let Heq := fresh "Heq" in
  intros Heq;
  first
    [ by (eapply tracked_not_slot in Heq; [|eassumption])
    | by (symmetry in Heq; eapply tracked_not_slot in Heq; [|eassumption])
    | apply slot_of_inj in Heq; congruence
    | congruence ].

Ltac cols_differ := right; names_differ.

(** ** The loop of accept_row *)

Lemma for_each_cons {A B : Type} (body : A → B → result A) (x : B) (xs : list B) (acc : A) :
  for_each body (x :: xs) acc = body acc x ≫= for_each body xs.
Proof. reflexivity. Qed.




Lemma applicable_tail (idx : nat) (ch : change) (changes : list change) (df : DataFrame) :
  applicable idx (ch :: changes) df → applicable idx changes (write_change idx df ch).
Proof.
  intros (Hnd & Htr & Hcell). rewrite fmap_cons in Hnd.
  apply NoDup_cons in Hnd as [Hnotin Hnd].
  split; [done|]. split; [intros; apply Htr; by right|].
  intros ch' Hin.
  assert (change_field ch' ≠ change_field ch) as Hne.
  { intros Heq. apply Hnotin. rewrite <- Heq. by apply list_elem_of_fmap_2. }
  assert (change_field ch' ∈ tracked_fields) as Htr' by (apply Htr; by right).
  assert (change_field ch ∈ tracked_fields) as Htr0 by (apply Htr; by left).
  destruct (Hcell ch') as [Hcur Hslot]; [by right|].
  unfold write_change. split.
  - rewrite !at_get_at_set_ne; [done|cols_differ..].
  - rewrite !at_get_at_set_ne; [done|cols_differ..].
Qed.

Lemma accept_loop (idx : nat) (changes : list change) (df : DataFrame) (fs : list string) :
  applicable idx changes df →
  for_each (accept_step idx) changes (df, fs)
  = Ok (apply_changes idx changes df, fs ++ (change_field <$> changes)).
Proof.
  revert df fs. induction changes as [|ch changes IH]; intros df fs Happ.
  - simpl. by rewrite app_nil_r.
  - rewrite for_each_cons.
    assert (accept_step idx (df, fs) ch
            = Ok (write_change idx df ch, fs ++ [change_field ch])) as ->.
    { destruct Happ as (_ & Htr & Hcell).
      destruct (Hcell ch) as [_ Hslot]; [by left|].
      assert (change_field ch ∈ tracked_fields) as Htr0 by (apply Htr; by left).
      destruct ch as [[f o] n]. unfold accept_step, write_change, change_field in *.
      simpl in *. rewrite new_col_of_slot.
      assert (at_get (at_set df idx f n) idx (slot_of f) = Ok n) as Hget.
      { rewrite at_get_at_set_ne; [done|cols_differ]. }
      assert (in_columns (at_set df idx f n) (slot_of f) = true) as ->.
      { apply at_get_Ok in Hget as (cells & Hc & _). unfold in_columns.
        apply bool_decide_eq_true. eauto. }
      rewrite Hget. done. }
    cbn [mbind result_bind]. rewrite IH by (by apply applicable_tail).
    cbn [fmap list_fmap]. unfold apply_changes. cbn [foldl]. by rewrite <- app_assoc.
Qed.


(** ** The change list of a row of the table *)

Lemma field_change_Some (row : Series) (f : string) (ch : change) :
  field_change row f = Some ch ↔
  ∃ old, row !! f = Some old
         ∧ _nonempty (proposal row f) = true
         ∧ py_ne (proposal row f) old = true
         ∧ ch = (f, old, proposal row f).
Proof.
  unfold field_change. destruct (row !! f) as [old|]; simpl.
  - destruct (_nonempty (proposal row f)) eqn:E1; simpl;
      [destruct (py_ne (proposal row f) old) eqn:E2|]; split.
    + intros [= <-]. by exists old.
    + by intros (? & [= <-] & _ & _ & ->).
    + discriminate.
    + intros (? & [= <-] & _ & ? & _). congruence.
    + discriminate.
    + by intros (? & _ & ? & _).
  - split; [discriminate|]. by intros (? & ? & _).
Qed.



Lemma active_proposal_lookup (row : Series) (f : string) :
  _nonempty (proposal row f) = true → row !! slot_of f = Some (proposal row f).
Proof. unfold proposal. by destruct (row !! slot_of f). Qed.

Lemma changes_spec_elem (row : Series) (ch : change) :
  ch ∈ changes_spec row ↔
  change_field ch ∈ tracked_fields ∧ field_change row (change_field ch) = Some ch.
Proof.
  unfold changes_spec. rewrite list_elem_of_omap. split.
  - intros (f & Hf & Hch). pose proof Hch as Hch'.
    apply field_change_Some in Hch' as (old & _ & _ & _ & ->). done.
  - intros [Hf Hch]. eauto.
Qed.

Lemma changes_spec_fields (row : Series) :
  change_field <$> changes_spec row
  = filter (λ f, is_Some (field_change row f)) tracked_fields.
Proof.
  unfold changes_spec. induction tracked_fields as [|f fs IH]; [done|].
  cbn [omap list_omap]. rewrite filter_cons.
  destruct (field_change row f) as [ch|] eqn:E.
  - rewrite decide_True by eauto. rewrite fmap_cons, IH. f_equal.
    apply field_change_Some in E as (old & _ & _ & _ & ->). done.
  - rewrite decide_False by (by intros [? ?]). done.
Qed.

Lemma changes_spec_NoDup (row : Series) : NoDup (change_field <$> changes_spec row).
Proof. rewrite changes_spec_fields. apply NoDup_filter, NoDup_tracked_fields. Qed.


Lemma changes_spec_applicable (df : DataFrame) (idx : nat) (row : Series) :
  loc df idx = Ok row → applicable idx (changes_spec row) df.
Proof.
  intros Hloc. split; [apply changes_spec_NoDup|]. split.
  - intros ch Hch. by apply changes_spec_elem in Hch as [? _].
  - intros ch Hch. apply changes_spec_elem in Hch as [_ Hch].
    apply field_change_Some in Hch as (old & Hold & Hact & _ & ->).
    unfold change_field. simpl. split.
    + exists old. by apply (loc_lookup _ _ _ _ _ Hloc).
    + apply (loc_lookup _ _ _ _ _ Hloc). by apply active_proposal_lookup.
Qed.

(** ** The loop of reject_row *)









(** ** What the handlers compute *)

Lemma get_changes_step_Ok (row : Series) (changes r : list change) (f : string) :
  get_changes_step row changes (f, slot_of f) = Ok r →
  r = changes ++ option_list (field_change row f).
Proof.
  destruct (row !! f) as [old|] eqn:Hold.
  - rewrite get_changes_step_spec by eauto. by intros [= <-].
  - unfold get_changes_step, field_change, proposal, in_index. rewrite Hold. simpl.
    case_bool_decide as H.
    + destruct (_nonempty _).
      * unfold getitem. rewrite Hold. discriminate.
      * intros [= <-]. by rewrite app_nil_r.
    + simpl. intros [= <-]. by rewrite app_nil_r.
Qed.

Lemma get_changes_loop_Ok (row : Series) (fields : list string) (changes r : list change) :
  for_each (get_changes_step row) ((λ field, (field, slot_of field)) <$> fields) changes = Ok r →
  r = changes ++ omap (field_change row) fields.
Proof.
  revert changes. induction fields as [|f fields IH]; intros changes.
  - simpl. intros [= <-]. by rewrite app_nil_r.
  - rewrite fmap_cons, for_each_cons. intros (r1 & H1 & H2)%bind_Ok.
    apply get_changes_step_Ok in H1 as ->. apply IH in H2 as ->.
    cbn [omap list_omap]. rewrite <- app_assoc. f_equal.
    by destruct (field_change row f).
Qed.

Lemma get_changes_Ok (row : Series) (changes : list change) :
  get_changes row = Ok changes → changes = changes_spec row.
Proof.
  unfold get_changes. rewrite pairs_are_tracked. intros H.
  by apply get_changes_loop_Ok in H.
Qed.

Lemma accept_row_noop (now : datetime) (idx : nat) (ss : SessionState)
    (row : Series) (name : value) :
  loc (doctors ss) idx = Ok row → row !! "Name" = Some name →
  get_changes row = Ok [] →
  accept_row now idx ss = Ok (log_audit now name "accepted (no-op)" [] ss).
Proof.
  intros Hloc Hname Hch. unfold accept_row. rewrite Hloc. cbn [mbind result_bind].
  rewrite Hch. unfold getitem. by rewrite Hname.
Qed.

Lemma accept_row_applied (now : datetime) (idx : nat) (ss : SessionState)
    (row : Series) (name : value) (changes : list change) :
  loc (doctors ss) idx = Ok row → row !! "Name" = Some name →
  get_changes row = Ok changes → changes ≠ [] →
  accept_row now idx ss
  = Ok (log_audit now name "accepted" (change_field <$> changes)
          {| doctors := apply_changes idx changes (doctors ss);
             actions := dict_set name "accepted" (actions ss);
             audit := audit ss |}).
Proof.
  intros Hloc Hname Hch Hne. unfold accept_row. rewrite Hloc. cbn [mbind result_bind].
  rewrite Hch. cbn [mbind result_bind].
  assert (applicable idx changes (doctors ss)) as Happ.
  { apply get_changes_Ok in Hch as ->. by apply changes_spec_applicable. }
  destruct changes as [|ch changes]; [done|].
  rewrite accept_loop by done. cbn [mbind result_bind].
  unfold getitem. by rewrite Hname.
Qed.




(** ** The action dict *)




(** ** Accepting a row that has changes *)


(** ** Accepting a row that has no change *)

(** C4.  For a row of the table whose change list is empty, [accept_row]
    returns normally, leaves the whole table (so every current field and
    every proposal slot) as it was, and appends exactly one audit entry,
    of action "accepted (no-op)", logged with the empty field list, which
    the log shows as "-". *)
Theorem accept_row_without_changes (now : datetime) (idx : nat)
    (ss : SessionState) (row : Series) (name : value) :
  loc (doctors ss) idx = Ok row →
  row !! "Name" = Some name →
  get_changes row = Ok [] →
  ∃ ss',
    accept_row now idx ss = Ok ss'
    ∧ doctors ss' = doctors ss
    ∧ audit ss'
      = audit ss ++ [ {| Time := strftime now;
                         Reviewer := REVIEWER;
                         Name := name;
                         Action := "accepted (no-op)";
                         Fields := fields_text [] |} ]
    ∧ fields_text [] = "-".
Proof.
  intros Hloc Hname Hch. eexists. split; [by eapply accept_row_noop|]. done.
Qed.

(** ** Rejecting a row *)


(** ** The change detector *)



(** ** Blank proposals *)

Lemma lstrip_whitespace_only (s : string) :
  whitespace_only s = true → lstrip s = "".
Proof.
  induction s as [|c s IH]; [done|]. simpl.
  intros [Hc Hs]%andb_true_iff. rewrite Hc. by apply IH.
Qed.

Lemma rstrip_empty (s : string) : rstrip s = "" → whitespace_only s = true.
Proof.
  induction s as [|c s IH]; [done|]. simpl.
  destruct (rstrip s) eqn:E; [|discriminate].
  destruct (is_space c); [|discriminate]. intros _. by apply IH.
Qed.

Lemma lstrip_empty (s : string) : lstrip s = "" → whitespace_only s = true.
Proof.
  induction s as [|c s IH]; [done|]. simpl.
  destruct (is_space c); [|discriminate]. intros H. by apply IH.
Qed.

Lemma lstrip_head (s : string) (c : ascii) (t : string) :
  lstrip s = String c t → is_space c = false.
Proof.
  induction s as [|c' s IH]; [done|]. simpl.
  destruct (is_space c') eqn:E; [done|]. by intros [= <- _].
Qed.

Lemma strip_empty (s : string) : strip s = "" ↔ whitespace_only s = true.
Proof.
  unfold strip. split.
  - intros H%rstrip_empty. destruct (lstrip s) as [|c t] eqn:E.
    + by apply lstrip_empty.
    + apply lstrip_head in E. simpl in H. by rewrite E in H.
  - intros H. by rewrite lstrip_whitespace_only.
Qed.





(** ** Resets *)

(** C7.  "Clear Session Actions" empties the action dict and leaves the
    audit log and the table as they were; "Clear Audit Log" empties the
    audit log and leaves the action dict and the table as they were. *)
Theorem resets_touch_one_component (ss : SessionState) :
  actions (clear_session_actions ss) = []
  ∧ audit (clear_session_actions ss) = audit ss
  ∧ doctors (clear_session_actions ss) = doctors ss
  ∧ audit (clear_audit_log ss) = []
  ∧ actions (clear_audit_log ss) = actions ss
  ∧ doctors (clear_audit_log ss) = doctors ss.
Proof. done. Qed.

(** ** The action dict and the rollup *)




(** ** The audit log *)



(** ** Invoking a handler again *)














(** ** The seed rows *)

(** An accept that finds nothing to apply does not clear an active slot
    whose value equals the current one: the first seed row keeps its
    proposed address through the accept, and a reject after it still
    clears the slot. *)
Example accept_then_reject_clears :
  ∃ ss1 ss2,
    accept_row sample_now 0 init_state = Ok ss1
    ∧ reject_row sample_later 0 ss1 = Ok ss2
    ∧ at_get (doctors ss1) 0 "New Address"
      = Ok (VStr "123 Medical Center Dr, Boston, MA")
    ∧ at_get (doctors ss2) 0 "New Address" = Ok (VStr "").
Proof. do 2 eexists. split; [|split]; [vm_compute; reflexivity..|]. by vm_compute. Qed.

(** The scenario of "Dr. James Wilson": only the year is proposed, 2018
    against 2016; accepting updates the year and logs the field "Year". *)
Example wilson_accept_updates_year (now : datetime) :
  get_changes (seed_row 3) = Ok [("Year", VInt 2016, VFloat (FFin 2018 0))]
  ∧ ∃ ss',
      accept_row now 3 init_state = Ok ss'
      ∧ at_get (doctors ss') 3 "Year" = Ok (VFloat (FFin 2018 0))
      ∧ py_eq (VFloat (FFin 2018 0)) (VInt 2018) = true
      ∧ at_get (doctors ss') 3 "New Year" = Ok VNone
      ∧ Fields <$> audit ss' = ["Year"].
Proof.
  assert (get_changes (seed_row 3) = Ok [("Year", VInt 2016, VFloat (FFin 2018 0))])
    as Hch by (by vm_compute).
  split; [done|]. eexists. split.
  - apply (accept_row_applied now 3 init_state (seed_row 3) (VStr "Dr. James Wilson"));
      [by vm_compute..|done].
  - unfold log_audit. cbn [doctors actions audit]. repeat split; by vm_compute.
Qed.

(** The scenario of "Dr. Sarah Johnson": the only proposal repeats the
    current address, so nothing differs; accepting changes no cell and
    logs a no-op entry without fields. *)
Example johnson_accept_is_noop (now : datetime) :
  get_changes (seed_row 0) = Ok []
  ∧ ∃ ss',
      accept_row now 0 init_state = Ok ss'
      ∧ doctors ss' = base_df
      ∧ Action <$> audit ss' = ["accepted (no-op)"]
      ∧ Fields <$> audit ss' = ["-"].
Proof.
  assert (get_changes (seed_row 0) = Ok []) as Hch by (by vm_compute).
  split; [done|]. eexists. split.
  - apply (accept_row_noop now 0 init_state (seed_row 0) (VStr "Dr. Sarah Johnson"));
      by vm_compute.
  - done.
Qed.

(** Against C5.  The second seed row, "Dr. Michael Chen", proposes an address that
    differs from the current one, so its change list is not the Focus
    entry alone and an accept does not leave the address slot alone. *)
Lemma chen_changes_are_not_focus_alone :
  at_get base_df 1 "Name" = Ok (VStr "Dr. Michael Chen")
  ∧ at_get base_df 1 "New Address" ≠ at_get base_df 1 "Address"
  ∧ get_changes (seed_row 1)
    ≠ Ok [("Focus", VStr "Neurology", VStr "Neurosurgery")]
  ∧ ∀ ss', accept_row sample_now 1 init_state = Ok ss' →
      at_get (doctors ss') 1 "New Address" ≠ at_get base_df 1 "New Address"
      ∧ Fields <$> audit ss' ≠ ["Focus"].
Proof.
  split; [by vm_compute|]. split; [by vm_compute|]. split; [by vm_compute|].
  intros ss'. vm_compute. intros [= <-]. by split.
Qed.

(** C5, as the code has it.  The seed row "Dr. Michael Chen" proposes the
    address "999 5th Ave, New York, NY", which differs from the current
    one, and the focus "Neurosurgery", which differs from "Neurology"; its
    other two slots are empty.  The change detector returns the Address
    entry and the Focus entry, in that order.  Accepting the row at the
    start of the session updates Address and Focus to the proposed
    values, clears exactly those two slots (to the empty string), leaves
    the school and year cells and slots as they were, records "accepted"
    for the name and appends one audit entry with action "accepted" and
    fields "Address, Focus". *)
Theorem chen_accept_applies_address_and_focus (now : datetime) :
  loc base_df 1 = Ok (seed_row 1)
  ∧ seed_row 1 !! "Name" = Some (VStr "Dr. Michael Chen")
  ∧ get_changes (seed_row 1)
    = Ok [ ("Address", VStr "456 Healthcare Blvd, New York, NY",
                       VStr "999 5th Ave, New York, NY");
           ("Focus", VStr "Neurology", VStr "Neurosurgery") ]
  ∧ ∃ ss',
      accept_row now 1 init_state = Ok ss'
      ∧ at_get (doctors ss') 1 "Address" = Ok (VStr "999 5th Ave, New York, NY")
      ∧ at_get (doctors ss') 1 "Focus" = Ok (VStr "Neurosurgery")
      ∧ at_get (doctors ss') 1 "New Address" = Ok (VStr "")
      ∧ at_get (doctors ss') 1 "New Focus" = Ok (VStr "")
      ∧ at_get (doctors ss') 1 "School Graduated" = Ok (VStr "Johns Hopkins")
      ∧ at_get (doctors ss') 1 "Year" = Ok (VInt 2018)
      ∧ at_get (doctors ss') 1 "New School Graduated" = Ok (VStr "")
      ∧ at_get (doctors ss') 1 "New Year" = Ok (VFloat FNaN)
      ∧ actions ss' = [(VStr "Dr. Michael Chen", "accepted")]
      ∧ audit ss'
        = [ {| Time := strftime now;
               Reviewer := "Albert Yao";
               Name := VStr "Dr. Michael Chen";
               Action := "accepted";
               Fields := "Address, Focus" |} ].
Proof.
  assert (loc base_df 1 = Ok (seed_row 1)) as Hloc by (by vm_compute).
  assert (seed_row 1 !! "Name" = Some (VStr "Dr. Michael Chen")) as Hname
    by (by vm_compute).
  assert (get_changes (seed_row 1)
          = Ok [ ("Address", VStr "456 Healthcare Blvd, New York, NY",
                             VStr "999 5th Ave, New York, NY");
                 ("Focus", VStr "Neurology", VStr "Neurosurgery") ]) as Hch
    by (by vm_compute).
  split; [done|]. split; [done|]. split; [done|].
  eexists. split.
  - by apply (accept_row_applied now 1 init_state _ _ _ Hloc Hname Hch).
  - unfold log_audit. cbn [doctors actions audit].
    repeat split; by vm_compute.
Qed.

(** ** The theorems at work on the seed table *)




Lemma accept_row_without_changes_witness :
  ∃ ss',
    accept_row sample_now 0 init_state = Ok ss'
    ∧ doctors ss' = base_df
    ∧ Action <$> audit ss' = ["accepted (no-op)"].
Proof.
  destruct (accept_row_without_changes sample_now 0 init_state (seed_row 0)
              (VStr "Dr. Sarah Johnson"))
    as (ss' & Hacc & Hdf & Haud & _).
  - vm_compute; reflexivity.
  - vm_compute; reflexivity.
  - vm_compute; reflexivity.
  - exists ss'. split; [exact Hacc|]. split; [exact Hdf|]. rewrite Haud. reflexivity.
Defined.





(** * Further properties of the handlers *)

(** ** Which cells a handler writes *)




(** ** Well-formed tables and sequences of clicks *)




Lemma in_columns_true (df : DataFrame) (c : string) :
  in_columns df c = true ↔ is_Some (df !! c).
Proof. unfold in_columns. apply bool_decide_eq_true. Qed.



Lemma table_ok_loc_outside (df : DataFrame) (n idx : nat) :
  table_ok df n → (n ≤ idx)%nat → loc df idx = KeyError (VInt (Z.of_nat idx)).
Proof.
  intros (Hrows & Hname & _) Hidx. unfold loc.
  rewrite bool_decide_eq_false_2; [done|]. intros Hall.
  apply in_columns_true in Hname as [cells Hc].
  pose proof (Hall "Name" cells Hc) as H1. simpl in H1.
  rewrite (Hrows "Name" cells Hc) in H1. lia.
Qed.



(** X4.  On a table of [n] rows with the [Name] column and the four
    current columns, [accept_row] and [reject_row] called with a label
    from [n] on, which is not a row of the table, raise [KeyError] with
    that label. *)
Theorem handlers_raise_outside_index (now : datetime) (idx n : nat) (ss : SessionState) :
  table_ok (doctors ss) n →
  (n ≤ idx)%nat →
  accept_row now idx ss = KeyError (VInt (Z.of_nat idx))
  ∧ reject_row now idx ss = KeyError (VInt (Z.of_nat idx)).
Proof.
  intros Hok Hidx. pose proof (table_ok_loc_outside _ _ _ Hok Hidx) as Hloc.
  unfold accept_row, reject_row. by rewrite Hloc.
Qed.


(** ** When the change detector raises *)





(** ** A table without a proposal column *)


(** ** What counts as a proposal *)

Lemma whitespace_only_false (s : string) :
  whitespace_only s = false ↔
  ∃ c, In c (list_ascii_of_string s) ∧ is_space c = false.
Proof.
  induction s as [|c s IH]; simpl.
  - split; [done|]. by intros (c & [] & _).
  - rewrite andb_false_iff, IH. split.
    + intros [Hc|(c' & Hin & Hc')]; [exists c; by split; [left|]|].
      exists c'. split; [by right|done].
    + intros (c' & [<-|Hin] & Hc'); [by left|]. right. by exists c'.
Qed.

(** X8.  [_nonempty] holds exactly of the ints, of the floats other than
    NaN, and of the strings with at least one character that is not white
    space; so the number 0 and the text "0" are proposals. *)
Theorem nonempty_characterised (v : value) :
  _nonempty v = true ↔
  (∃ n, v = VInt n)
  ∨ (∃ x, v = VFloat x ∧ x ≠ FNaN)
  ∨ (∃ s c, v = VStr s ∧ In c (list_ascii_of_string s) ∧ is_space c = false).
Proof.
  destruct v as [|s|n|x]; simpl.
  - split; [done|]. by intros [[? ?]|[(? & ? & _)|(? & ? & ? & _)]].
  - rewrite negb_true_iff. split.
    + intros H. right. right.
      assert (whitespace_only s = false) as Hws.
      { destruct (whitespace_only s) eqn:E; [|done].
        apply strip_empty in E. rewrite E in H. done. }
      apply whitespace_only_false in Hws as (c & Hin & Hc). by exists s, c.
    + intros [[? ?]|[(? & ? & _)|(s' & c & [= <-] & Hin & Hc)]]; [done..|].
      assert (whitespace_only s = false) as Hws
        by (apply whitespace_only_false; by exists c).
      destruct (String.eqb_spec (strip s) "") as [E|E]; [|done].
      apply strip_empty in E. congruence.
  - split; [intros _; left; by exists n|done].
  - destruct x as [|b|m e]; split; try done.
    + intros [[? ?]|[(? & [= <-] & H)|(? & ? & ? & _)]]; done.
    + intros _. right. left. by eexists.
    + intros _. right. left. by eexists.
Qed.

(** ** The field text of an audit entry *)

(** X9.  The field text of an audit entry names its fields without
    ambiguity: two lists of tracked fields in the fixed order (the only
    lists the handlers log) with the same text are the same list; in
    particular "-" stands for the empty list only. *)
Theorem fields_text_injective (fields fields' : list string) :
  sublist fields tracked_fields →
  sublist fields' tracked_fields →
  fields_text fields = fields_text fields' →
  fields = fields'.
Proof.
  unfold tracked_fields. intros H H'.
  repeat (apply sublist_cons_r in H as [H|(? & -> & H)]);
    apply sublist_nil_r in H as ->;
    repeat (apply sublist_cons_r in H' as [H'|(? & -> & H')]);
    apply sublist_nil_r in H' as ->;
    vm_compute; intros Heq; first [reflexivity | discriminate Heq].
Qed.

(** ** Python's [==] on cell values *)








(** ** Invariants of a session *)










(** ** The action dict against the audit log *)




(** ** Proposals are used up, never made *)




(** ** A resolved row stays resolved *)




(** ** A reject after an accept *)



(** ** After an accept every proposal is in force *)



(** ** The audit log of a session *)



(** ** The further theorems at work on the seed table *)

Lemma base_df_ok : table_ok base_df 5.
Proof.
  split; [|split].
  - unfold has_rows. apply (bool_decide_unpack _). by vm_compute.
  - by vm_compute.
  - intros f Hf. unfold tracked_fields in Hf.
    repeat (apply elem_of_cons in Hf as [->|Hf]); [by vm_compute..|].
    by apply elem_of_nil in Hf.
Qed.





Lemma handlers_raise_outside_index_witness :
  accept_row sample_now 5 init_state = KeyError (VInt 5)
  ∧ reject_row sample_now 5 init_state = KeyError (VInt 5).
Proof.
  apply (handlers_raise_outside_index sample_now 5 5 init_state).
  - exact base_df_ok.
  - lia.
Defined.



Lemma fields_text_injective_witness :
  fields_text ["Address"; "Year"] = "Address, Year"
  ∧ ["Address"; "Year"] = ["Address"; "Year"].
Proof.
  split; [reflexivity|].
  apply (fields_text_injective ["Address"; "Year"] ["Address"; "Year"]).
  - unfold tracked_fields. apply sublist_skip, sublist_cons, sublist_cons,
      sublist_skip, sublist_nil.
  - unfold tracked_fields. apply sublist_skip, sublist_cons, sublist_cons,
      sublist_skip, sublist_nil.
  - reflexivity.
Defined.









